(** * FinScraps: the ANBIMA business-day calendar and the IRTS scrape manager

    Shallow embedding of [src/src/utils.py] (class [BRCal]), of
    [src/src/managers/Managers.py] (class [AnbimaIRTSManager]), of
    [src/src/scrapers/Scrapers.py] (class [AnbimaIRTSScraper]) and of the
    [src/auto_scrape.py] script.

    Time is modelled the way pandas stores it: a [pd.Timestamp] is an
    integer number of nanoseconds since 1970-01-01 00:00 (a [Z]).  The
    business-day arithmetic of [CustomBusinessDay] is delegated by pandas to
    [np.busday_offset], which works on whole days ([datetime64[D]]): those
    functions below work on day numbers (days since 1970-01-01, a Thursday). *)

From Stdlib Require Import String ZArith List Bool Lia.
From Stdlib Require Import Sorting.Sorted Sorting.Permutation.
Import ListNotations.
Open Scope Z_scope.

(* ------------------------------------------------------------------ *)
(** ** Timestamps *)

Definition DAY_NANOS : Z := 86400 * 1000000000.

(** [Timestamp.normalize]: drop the time of day (floor to midnight). *)
Definition normalize (t : Z) : Z := t - t mod DAY_NANOS.

(** The day number of a timestamp, and the midnight timestamp of a day. *)
Definition day_of (t : Z) : Z := t / DAY_NANOS.
Definition to_timestamp (d : Z) : Z := d * DAY_NANOS.

(** [Timestamp.weekday()]: Monday = 0, ..., Sunday = 6; day 0 is a Thursday. *)
Definition weekday (t : Z) : Z := (day_of t + 3) mod 7.

(** The holiday set read from ANBIMA's spreadsheet ([parse_dates=[0]]): a set
    of midnight timestamps, identified with their day numbers. *)
Definition holiday_set := list Z.

Definition mem_holiday (hs : holiday_set) (d : Z) : bool := existsb (Z.eqb d) hs.

(* ------------------------------------------------------------------ *)
(** ** [BRCal.is_business_day] *)

Definition is_business_day (hs : holiday_set) (date : Z) : bool :=
  let date := normalize date in
  (weekday date <? 5) && negb (mem_holiday hs (day_of date)).

(* ------------------------------------------------------------------ *)
(** ** [CustomBusinessDay(weekmask="Mon Tue Wed Thu Fri", holidays=...)]

    [np.busdaycalendar]: a day is valid when its weekday is in the mask and
    it is not a holiday. *)

Definition is_busday (hs : holiday_set) (d : Z) : bool :=
  ((d + 3) mod 7 <? 5) && negb (mem_holiday hs d).

(** numpy's loops that walk day by day until a valid day is met.  Any three
    consecutive days contain a weekday, so [3 * (|holidays| + 1)] days always
    contain a valid one; the search never runs out (lemma [seek_finds]). *)
Definition search_fuel (hs : holiday_set) : nat := 3 * (length hs + 1).

Fixpoint seek (hs : holiday_set) (dir : Z) (fuel : nat) (d : Z) : Z :=
  match fuel with
  | O => d
  | S f => if is_busday hs d then d else seek hs dir f (d + dir)
  end.

Definition roll_forward (hs : holiday_set) (d : Z) : Z := seek hs 1 (search_fuel hs) d.
Definition roll_backward (hs : holiday_set) (d : Z) : Z := seek hs (-1) (search_fuel hs) d.

(** [np.busday_offset(d, n, roll, busdaycal)]: roll [d] to a valid day, then
    move [n] valid days. *)
Definition busday_offset (hs : holiday_set) (d n : Z) (roll_fwd : bool) : Z :=
  let r := if roll_fwd then roll_forward hs d else roll_backward hs d in
  if 0 <=? n
  then Nat.iter (Z.to_nat n) (fun x => roll_forward hs (x + 1)) r
  else Nat.iter (Z.to_nat (- n)) (fun x => roll_backward hs (x - 1)) r.

(** [CustomBusinessDay._apply] with [self.n = n]: roll "forward" when
    [n <= 0], "backward" otherwise. *)
Definition cbd_apply (hs : holiday_set) (n d : Z) : Z :=
  busday_offset hs d n (n <=? 0).

(** [offset.rollforward] / [offset.rollback] of pandas' [BaseOffset]. *)
Definition rollforward (hs : holiday_set) (d : Z) : Z :=
  if is_busday hs d then d else cbd_apply hs 1 d.
Definition rollback (hs : holiday_set) (d : Z) : Z :=
  if is_busday hs d then d else cbd_apply hs (-1) d.

(* ------------------------------------------------------------------ *)
(** ** [BRCal.previous_business_day]: [date - self._custom_bday] *)

Definition previous_business_day (hs : holiday_set) (date : Z) : Z :=
  let date := normalize date in
  to_timestamp (cbd_apply hs (-1) (day_of date)).

(* ------------------------------------------------------------------ *)
(** ** [BRCal.day_range]: [pd.date_range(start, end, freq=self._custom_bday)]

    pandas' [generate_range]: roll [start] forward if it is not on the
    offset, otherwise roll [end] back; when [end < start] the range has no
    periods; otherwise yield [cur] and step by the offset while [cur <= end].
    Each step moves at least one day, so [end - start + 1] iterations
    suffice. *)

Fixpoint gen_loop (hs : holiday_set) (fuel : nat) (cur end_ : Z) : list Z :=
  match fuel with
  | O => []
  | S f =>
      if cur <=? end_
      then cur :: (if cur =? end_ then [] else gen_loop hs f (cbd_apply hs 1 cur) end_)
      else []
  end.

Definition generate_range (hs : holiday_set) (start end_ : Z) : list Z :=
  let '(s, e) :=
    if negb (is_busday hs start) then (rollforward hs start, end_)
    else if negb (is_busday hs end_) then (start, rollback hs end_)
    else (start, end_) in
  if e <? s then [] else gen_loop hs (Z.to_nat (e - s + 1)) s e.

Definition day_range (hs : holiday_set) (start_date end_date : Z) : list Z :=
  let start_date := normalize start_date in
  let end_date := normalize end_date in
  map to_timestamp (generate_range hs (day_of start_date) (day_of end_date)).

(* ------------------------------------------------------------------ *)
(** ** [BRCal.day_count]

    The method looks up [self.bday_range], an attribute [BRCal] does not
    define (its range method is [day_range]); Python raises
    [AttributeError] at the lookup.  The lookup is modelled by the table of
    [BRCal]'s range-valued methods. *)

Inductive exn : Type :=
  | KeyError (key : string)
  | AttributeError (name : string)
  | FetchError (msg : string).

Definition BRCal_range_method (hs : holiday_set) (name : string)
  : option (Z -> Z -> list Z) :=
  if String.eqb name "day_range" then Some (day_range hs) else None.

Definition day_count (hs : holiday_set) (start_date end_date : Z) : exn + Z :=
  match BRCal_range_method hs "bday_range" with
  | None => inl (AttributeError "bday_range")
  | Some bday_range =>
      let bdays := bday_range start_date end_date in
      inr (Z.max 0 (Z.of_nat (length bdays) - 1))
  end.

(* ------------------------------------------------------------------ *)
(** ** Data frames

    A frame of the IRTS dataset: its column labels and its rows.  A row has
    the schema [{date, type, b1, b2, b3, b4, l1, l2}]; a cell of a column the
    frame lacks is missing ([None], pandas' NaN/NaT), which is how [pd.concat]
    fills it.  The parameter values are floats; the code only compares them
    for equality ([drop_duplicates]), so they are kept abstract. *)

Section Frames.
Context {num : Type}.
Variable num_eq_dec : forall x y : num, {x = y} + {x <> y}.

Record row : Type := mk_row {
  r_date : option Z;
  r_type : option string;
  r_b1 : option num; r_b2 : option num; r_b3 : option num; r_b4 : option num;
  r_l1 : option num; r_l2 : option num }.

Record frame : Type := mk_frame { columns : list string; rows : list row }.

Definition row_eq_dec (r1 r2 : row) : {r1 = r2} + {r1 <> r2}.
Proof.
  decide equality; decide equality;
    first [apply num_eq_dec | apply string_dec | apply Z.eq_dec].
Defined.

(** [pd.DataFrame()] *)
Definition empty_frame : frame := mk_frame [] [].

(** [df.empty]: true when either axis has length 0. *)
Definition frame_empty (f : frame) : bool :=
  match columns f, rows f with
  | [], _ | _, [] => true
  | _, _ => false
  end.

Definition has_column (c : string) (f : frame) : bool :=
  existsb (String.eqb c) (columns f).

(** [date in df["date"].unique()]: NaT never equals a timestamp. *)
Definition date_present (f : frame) (date : Z) : bool :=
  existsb (fun r => match r_date r with Some d => d =? date | None => false end)
          (rows f).

(** [pd.concat([f1, f2], ignore_index=True)] *)
Definition concat (f1 f2 : frame) : frame :=
  mk_frame (columns f1 ++ filter (fun c => negb (existsb (String.eqb c) (columns f1)))
                                 (columns f2))
           (rows f1 ++ rows f2).

(** [drop_duplicates()] with [keep="first"]: a row equal in every column
    to an earlier one is dropped (missing cells compare equal). *)
Fixpoint dedup_rows (seen : list row) (l : list row) : list row :=
  match l with
  | [] => []
  | r :: l' =>
      if in_dec row_eq_dec r seen then dedup_rows seen l'
      else r :: dedup_rows (r :: seen) l'
  end.

Definition drop_duplicates (f : frame) : frame :=
  mk_frame (columns f) (dedup_rows [] (rows f)).

(** [sort_values("date", ascending=True)], NaT placed last
    ([na_position="last"]).  pandas' default quicksort may order rows with
    equal dates either way; the model fixes the order of insertion sort,
    and the lemmas below use only sortedness and the permutation. *)
Definition date_leb (a b : option Z) : bool :=
  match a, b with
  | Some x, Some y => x <=? y
  | Some _, None => true
  | None, Some _ => false
  | None, None => true
  end.

Fixpoint insert_by_date (r : row) (l : list row) : list row :=
  match l with
  | [] => [r]
  | r' :: l' =>
      if date_leb (r_date r) (r_date r') then r :: l
      else r' :: insert_by_date r l'
  end.

Fixpoint sort_by_date (l : list row) : list row :=
  match l with
  | [] => []
  | r :: l' => insert_by_date r (sort_by_date l')
  end.

Definition sort_values (key : string) (f : frame) : exn + frame :=
  if has_column key f then inr (mk_frame (columns f) (sort_by_date (rows f)))
  else inl (KeyError key).

(** ** [AnbimaIRTSScraper] *)

(** A [<PARAMETRO>] element: its [Grupo] attribute and its six values,
    already converted by [convert] (empty attribute: [None]). *)
Record xml_param : Type := mk_param {
  p_grupo : option string;
  p_b1 : option num; p_b2 : option num; p_b3 : option num; p_b4 : option num;
  p_l1 : option num; p_l2 : option num }.

Definition type_mapping (g : option string) : option string :=
  match g with
  | Some s =>
      if String.eqb s "PREFIXADOS" then Some "pre"%string
      else if String.eqb s "IPCA" then Some "ipca"%string
      else Some s
  | None => None
  end.

Definition parse_params (date : Z) (ps : list xml_param) : list row :=
  map (fun p => mk_row (Some date) (type_mapping (p_grupo p))
                       (p_b1 p) (p_b2 p) (p_b3 p) (p_b4 p) (p_l1 p) (p_l2 p)) ps.

(** [pd.DataFrame(parametros)]: no records give a frame with no columns. *)
Definition DataFrame (rs : list row) : frame :=
  match rs with
  | [] => empty_frame
  | _ => mk_frame ["date"; "type"; "b1"; "b2"; "b3"; "b4"; "l1"; "l2"]%string rs
  end.

(** [scrape]: [download_xml] (the HTTP exchange with its retries and the XML
    decoding, an external collaborator given as [download]) then
    [parse_params]. *)
Definition scrape (download : Z -> exn + list xml_param) (date : Z) : exn + frame :=
  match download date with
  | inl e => inl e
  | inr ps => inr (DataFrame (parse_params date ps))
  end.
End Frames.

Arguments row : clear implicits.
Arguments frame : clear implicits.
Arguments xml_param : clear implicits.

(* ------------------------------------------------------------------ *)
(** ** Effects of one [scrape_and_update] invocation

    The world seen by the manager: the Feather file ([None] when it does not
    exist) and the trace of observable effects (reads and writes of the
    file, calls of the scraper, log records). *)

Inductive level : Type := INFO | WARNING | ERROR.

Inductive event : Type :=
  | ReadStore
  | WriteStore
  | Fetch (date : Z)
  | Log (lvl : level).

Record world (num : Type) : Type := mk_world {
  store : option (frame num);
  trace : list event }.

Arguments mk_world {num} _ _.
Arguments store {num} _.
Arguments trace {num} _.

(** A state and exception monad: Python's [raise] / [except] over the world. *)
Definition M (num A : Type) : Type := world num -> (exn + A) * world num.

Definition ret {num A} (a : A) : M num A := fun w => (inr a, w).

Definition bind {num A B} (m : M num A) (k : A -> M num B) : M num B :=
  fun w => match m w with
           | (inl e, w') => (inl e, w')
           | (inr a, w') => k a w'
           end.

Definition raise {num A} (e : exn) : M num A := fun w => (inl e, w).

(** [try: m except Exception as e: h e] *)
Definition try_except {num A} (m : M num A) (h : exn -> M num A) : M num A :=
  fun w => match m w with
           | (inl e, w') => h e w'
           | ok => ok
           end.

Definition lift {num A} (r : exn + A) : M num A :=
  fun w => (r, w).

Notation "x <- m ;; k" := (bind m (fun x => k))
  (at level 61, m at next level, right associativity).
Notation "m ;; k" := (bind m (fun _ => k)) (at level 61, right associativity).

Definition emit {num} (ev : event) : M num unit :=
  fun w => (inr tt, mk_world (store w) (trace w ++ [ev])).

Definition log {num} (lvl : level) : M num unit := emit (Log lvl).

(** [pd.read_feather(feather_path)] when [feather_path.exists()]. *)
Definition read_store {num} : M num (option (frame num)) :=
  fun w => (inr (store w), mk_world (store w) (trace w ++ [ReadStore])).

(** [combined_df.to_feather(feather_path)]: overwrite the whole file. *)
Definition write_store {num} (f : frame num) : M num unit :=
  fun w => (inr tt, mk_world (Some f) (trace w ++ [WriteStore])).

(** [self.scraper.scrape(date)] *)
Definition fetch {num} (download : Z -> exn + list (xml_param num)) (date : Z)
  : M num (frame num) :=
  fun w => (scrape download date, mk_world (store w) (trace w ++ [Fetch date])).

(* ------------------------------------------------------------------ *)
(** ** [AnbimaIRTSManager]

    [clock] is the instant [pd.Timestamp("now")] returns during the call;
    [self.calendar.today] is its normalisation. *)

Definition today (clock : Z) : Z := normalize clock.

Definition _validate_date {num} (hs : holiday_set) (clock date : Z) : M num bool :=
  if negb (is_business_day hs date) then log WARNING ;; ret false
  else if today clock <? date then log WARNING ;; ret false
  else
    let day_count := Z.of_nat (length (day_range hs date (today clock))) in
    if 5 <? day_count then log WARNING ;; ret false
    else ret true.

Section Manager.
Context {num : Type}.
Variable num_eq_dec : forall x y : num, {x = y} + {x <> y}.
Variable hs : holiday_set.
Variable download : Z -> exn + list (xml_param num).

Definition scrape_and_update (clock date : Z) : M num bool :=
  valid <- _validate_date hs clock date ;;
  if negb valid then ret false else
  stored <- read_store ;;
  let existing_df := match stored with Some f => f | None => empty_frame end in
  log INFO ;;
  let fetch_merge_store :=
    log INFO ;;
    new_data <- try_except (fetch download date) (fun e => log ERROR ;; raise e) ;;
    log INFO ;;
    let combined_df := drop_duplicates num_eq_dec (concat existing_df new_data) in
    combined_df <- lift (sort_values "date" combined_df) ;;
    write_store combined_df ;;
    log INFO ;;
    ret true in
  if negb (frame_empty existing_df) && has_column "date" existing_df then
    if date_present existing_df date then log INFO ;; ret false
    else fetch_merge_store
  else if negb (frame_empty existing_df) then log WARNING ;; fetch_merge_store
  else fetch_merge_store.
End Manager.

(** Effects that neither call the scraper nor write the file. *)
Definition quiet (ev : event) : Prop :=
  match ev with
  | ReadStore | Log _ => True
  | WriteStore | Fetch _ => False
  end.

(** The order of [sort_values("date")]: ascending dates, missing dates last. *)
Definition row_date_le {num} (a b : row num) : Prop := date_leb (r_date a) (r_date b) = true.

(** The days met by a walk of [k] steps from [d] in direction [dir], and
    numpy's weekmask test. *)
Definition walk_day (d dir : Z) (k : nat) : Z := d + dir * Z.of_nat k.
Definition weekday_ok (x : Z) : bool := (x + 3) mod 7 <? 5.

(* ------------------------------------------------------------------ *)
(** ** [AnbimaIRTSScraper.download_xml]: the POST with its retries

    [post attempt] is what the [attempt]-th [requests.post] of the form
    (date, [saida = "xml"]) yields after [raise_for_status()]: the content,
    a [RequestException] (an [HTTPError] is one), or another exception,
    which the [except] clause does not catch. *)

Inductive post_outcome (B : Type) : Type :=
  | PostOk (content : B)
  | PostRequestError (e : exn)
  | PostOtherError (e : exn).

Arguments PostOk {B} _.
Arguments PostRequestError {B} _.
Arguments PostOtherError {B} _.

Inductive dl_event : Type := Post (attempt : nat) | Sleep.

Definition max_retries : nat := 5.

(** [for attempt in range(max_retries)]; [None] is the implicit [return None]
    after the loop. *)
Fixpoint download_attempts {B} (post : nat -> post_outcome B) (attempts : list nat)
  : option (exn + B) * list dl_event :=
  match attempts with
  | [] => (None, [])
  | attempt :: rest =>
      match post attempt with
      | PostOk content => (Some (inr content), [Post attempt])
      | PostOtherError e => (Some (inl e), [Post attempt])
      | PostRequestError e =>
          if Nat.ltb attempt (max_retries - 1)
          then let '(r, evs) := download_attempts post rest in
               (r, Post attempt :: Sleep :: evs)
          else (Some (inl e), [Post attempt])
      end
  end.

Definition download_xml {B} (post : nat -> post_outcome B) : option (exn + B) * list dl_event :=
  download_attempts post (seq 0 max_retries).

(* ------------------------------------------------------------------ *)
(** ** [BRCal._fetch_holidays]

    [get] is the outcome of [requests.get(self.url, timeout=15)] with
    [raise_for_status()] (a [RequestException] is caught); [read_excel] is
    [pd.read_excel(BytesIO(content), parse_dates=[0])] on the content, its
    rows as the [Data] cell (a day number, or missing) and the other cells;
    its errors are not caught.  [.dropna()] drops every row with a missing
    cell, then the [Data] column is collected into a set. *)




(* ------------------------------------------------------------------ *)
(** ** [auto_scrape.py]

    [brcal.today] is read at [clock0]; the manager's calendar reads the
    clock again ([clock1]) inside [_validate_date].  Both [BRCal] instances
    read the same spreadsheet ([hs]).  [if br_business_day:] tests a
    [pd.Timestamp], which is always truthy, so the scrape always runs. *)


(** The trace of attempts [first .. last] of [download_xml]: a sleep after
    each failed attempt before [last]. *)
Definition retry_trace (first last : nat) : list dl_event :=
  flat_map (fun j => [Post j; Sleep]) (seq first (last - first)) ++ [Post last].

(** Counting the writes of the file and the calls of the scraper in a trace. *)
Definition is_write (ev : event) : bool :=
  match ev with WriteStore => true | _ => false end.
Definition is_fetch (ev : event) : bool :=
  match ev with Fetch _ => true | _ => false end.
Definition count_events (p : event -> bool) (evs : list event) : nat :=
  length (filter p evs).

(* ------------------------------------------------------------------ *)
(** ** Concrete inputs

    Day 19737 is Monday 2024-01-15; [monday_10am] is 10:00 that day.  The
    parameter values are taken as integers here. *)

Definition monday_2024_01_15 : Z := to_timestamp 19737.
Definition monday_10am : Z := monday_2024_01_15 + 36000 * 1000000000.

(** The scraper's answer for any date: no [<PARAMETRO>] element, or one. *)
Definition download_none (date : Z) : exn + list (xml_param Z) := inr [].
Definition download_one (date : Z) : exn + list (xml_param Z) :=
  inr [mk_param (Some "PREFIXADOS"%string) (Some 10) (Some (-3)) (Some 2) None (Some 1) None].

(** A stored dataset holding the [pre] row of 2024-01-15. *)
Definition stored_jan15 : frame Z :=
  mk_frame ["date"; "type"; "b1"; "b2"; "b3"; "b4"; "l1"; "l2"]%string
           [mk_row (Some monday_2024_01_15) (Some "pre"%string)
                   (Some 10) (Some (-3)) (Some 2) None (Some 1) None].

(* ------------------------------------------------------------------ *)
(** ** Calendar lemmas *)

Lemma DAY_NANOS_pos : 0 < DAY_NANOS.
Proof. unfold DAY_NANOS; lia. Qed.

Lemma day_of_to_timestamp d : day_of (to_timestamp d) = d.
Proof.
  unfold day_of, to_timestamp. apply Z.div_mul. pose proof DAY_NANOS_pos; lia.
Qed.

Lemma normalize_to_timestamp d : normalize (to_timestamp d) = to_timestamp d.
Proof.
  unfold normalize, to_timestamp. rewrite Z.mod_mul; [lia|].
  pose proof DAY_NANOS_pos; lia.
Qed.

Lemma normalize_eq t : normalize t = to_timestamp (day_of t).
Proof.
  unfold normalize, to_timestamp, day_of. pose proof DAY_NANOS_pos.
  pose proof (Z.div_mod t DAY_NANOS ltac:(lia)). lia.
Qed.

Lemma to_timestamp_lt d1 d2 : d1 < d2 <-> to_timestamp d1 < to_timestamp d2.
Proof.
  unfold to_timestamp. pose proof DAY_NANOS_pos. split; intro; nia.
Qed.

Lemma to_timestamp_le d1 d2 : d1 <= d2 <-> to_timestamp d1 <= to_timestamp d2.
Proof.
  unfold to_timestamp. pose proof DAY_NANOS_pos. split; intro; nia.
Qed.

Lemma to_timestamp_day_of_le t : to_timestamp (day_of t) <= t.
Proof.
  unfold to_timestamp, day_of. pose proof DAY_NANOS_pos.
  rewrite Z.mul_comm. apply Z.mul_div_le. lia.
Qed.

(** On a midnight timestamp, pandas' predicate and numpy's agree. *)
Lemma is_business_day_to_timestamp hs d :
  is_business_day hs (to_timestamp d) = is_busday hs d.
Proof.
  unfold is_business_day, is_busday, weekday.
  rewrite normalize_to_timestamp, day_of_to_timestamp. reflexivity.
Qed.

Lemma mem_holiday_In hs d : mem_holiday hs d = true <-> In d hs.
Proof.
  unfold mem_holiday. rewrite existsb_exists. split.
  - intros [x [Hx Heq]]. apply Z.eqb_eq in Heq. subst. exact Hx.
  - intro H. exists d. split; [exact H | apply Z.eqb_refl].
Qed.

(** [seek] returns the first valid day on its walk, if the walk meets one. *)
Lemma seek_first hs dir fuel d k :
  (k < fuel)%nat -> is_busday hs (d + dir * Z.of_nat k) = true ->
  exists j, seek hs dir fuel d = d + dir * Z.of_nat j /\
            is_busday hs (d + dir * Z.of_nat j) = true /\
            forall i, (i < j)%nat -> is_busday hs (d + dir * Z.of_nat i) = false.
Proof.
  revert d k. induction fuel as [|f IH]; intros d k Hk Hb; [lia|].
  simpl. destruct (is_busday hs d) eqn:Hd.
  - exists 0%nat. simpl Z.of_nat. rewrite Z.mul_0_r, Z.add_0_r.
    repeat split; auto. intros; lia.
  - destruct k as [|k].
    + simpl Z.of_nat in Hb. rewrite Z.mul_0_r, Z.add_0_r in Hb. congruence.
    + destruct (IH (d + dir) k ltac:(lia)) as [j [Hj1 [Hj2 Hj3]]].
      { replace (d + dir + dir * Z.of_nat k) with (d + dir * Z.of_nat (S k)) by lia.
        exact Hb. }
      exists (S j). rewrite Hj1.
      replace (d + dir + dir * Z.of_nat j) with (d + dir * Z.of_nat (S j)) in * by lia.
      repeat split; auto.
      intros [|i] Hi.
      * simpl Z.of_nat. rewrite Z.mul_0_r, Z.add_0_r. exact Hd.
      * replace (d + dir * Z.of_nat (S i)) with (d + dir + dir * Z.of_nat i) by lia.
        apply Hj3. lia.
Qed.

(** Among any three consecutive days one is a weekday. *)
Lemma three_days_weekday z dir :
  dir = 1 \/ dir = -1 ->
  (z + 3) mod 7 < 5 \/ (z + dir + 3) mod 7 < 5 \/ (z + dir * 2 + 3) mod 7 < 5.
Proof. intros [-> | ->]; Z.div_mod_to_equations; lia. Qed.

Section Walk.
Variable hs : holiday_set.
Variables (d dir : Z).
Hypothesis Hdir : dir = 1 \/ dir = -1.

Lemma walk_NoDup s n : NoDup (map (walk_day d dir) (seq s n)).
Proof.
  revert s. induction n as [|n IH]; intro s; simpl; constructor; auto.
  rewrite in_map_iff. intros [k [Hk Hin]]. apply in_seq in Hin.
  unfold walk_day in Hk. destruct Hdir; subst; lia.
Qed.

Lemma walk_weekdays m :
  (m <= length (filter weekday_ok (map (walk_day d dir) (seq 0 (3 * m)))))%nat.
Proof.
  induction m as [|m IH]; [simpl; lia|].
  replace (3 * S m)%nat with (3 * m + 3)%nat by lia.
  rewrite seq_app, map_app, filter_app, length_app.
  set (z := (walk_day d dir) (0 + 3 * m)%nat).
  replace (map (walk_day d dir) (seq (0 + 3 * m) 3)) with [z; z + dir; z + dir * 2]
    by (unfold z, walk_day; simpl map; f_equal; try nia; f_equal; try nia; f_equal; nia).
  enough (Nat.le 1 (length (filter weekday_ok [z; z + dir; z + dir * 2]))) by lia.
  unfold weekday_ok; simpl.
  destruct ((z + 3) mod 7 <? 5) eqn:E1; destruct ((z + dir + 3) mod 7 <? 5) eqn:E2;
    destruct ((z + dir * 2 + 3) mod 7 <? 5) eqn:E3; simpl; try lia.
  apply Z.ltb_ge in E1, E2, E3. destruct (three_days_weekday z dir Hdir); lia.
Qed.

(** Pigeonhole: the walk meets a valid day within [search_fuel hs] steps. *)
Lemma busday_within_fuel :
  exists k, (k < search_fuel hs)%nat /\ is_busday hs (d + dir * Z.of_nat k) = true.
Proof.
  destruct (existsb (fun k => is_busday hs ((walk_day d dir) k)) (seq 0 (search_fuel hs))) eqn:E.
  - apply existsb_exists in E. destruct E as [k [Hk Hb]].
    apply in_seq in Hk. exists k. split; [lia | exact Hb].
  - exfalso.
    set (L := filter weekday_ok (map (walk_day d dir) (seq 0 (search_fuel hs)))).
    assert (Hincl : incl L hs).
    { intros x Hx. unfold L in Hx. apply filter_In in Hx. destruct Hx as [Hx Hw].
      apply in_map_iff in Hx. destruct Hx as [k [<- Hk]].
      destruct (is_busday hs ((walk_day d dir) k)) eqn:Hb.
      - assert (existsb (fun k => is_busday hs ((walk_day d dir) k)) (seq 0 (search_fuel hs)) = true)
          by (apply existsb_exists; exists k; auto).
        congruence.
      - unfold is_busday in Hb. unfold weekday_ok in Hw. rewrite Hw in Hb. simpl in Hb.
        apply negb_false_iff in Hb. apply mem_holiday_In. exact Hb. }
    assert (Hnd : NoDup L) by (apply NoDup_filter, walk_NoDup).
    pose proof (NoDup_incl_length Hnd Hincl) as Hle.
    pose proof (walk_weekdays (length hs + 1)) as Hge.
    unfold L, search_fuel in Hle. lia.
Qed.
End Walk.

Lemma roll_forward_spec hs d :
  d <= roll_forward hs d /\ is_busday hs (roll_forward hs d) = true /\
  forall x, d <= x < roll_forward hs d -> is_busday hs x = false.
Proof.
  destruct (busday_within_fuel hs d 1 ltac:(lia)) as [k [Hk Hb]].
  destruct (seek_first hs 1 (search_fuel hs) d k Hk Hb) as [j [Hj [Hjb Hjf]]].
  unfold roll_forward. rewrite Hj. repeat split; [lia | exact Hjb |].
  intros x Hx. replace x with (d + 1 * Z.of_nat (Z.to_nat (x - d))) by lia.
  apply Hjf. lia.
Qed.

Lemma roll_backward_spec hs d :
  roll_backward hs d <= d /\ is_busday hs (roll_backward hs d) = true /\
  forall x, roll_backward hs d < x <= d -> is_busday hs x = false.
Proof.
  destruct (busday_within_fuel hs d (-1) ltac:(lia)) as [k [Hk Hb]].
  destruct (seek_first hs (-1) (search_fuel hs) d k Hk Hb) as [j [Hj [Hjb Hjf]]].
  unfold roll_backward. rewrite Hj. repeat split; [lia | exact Hjb |].
  intros x Hx. replace x with (d + -1 * Z.of_nat (Z.to_nat (d - x))) by lia.
  apply Hjf. lia.
Qed.

Lemma roll_forward_busday hs d : is_busday hs d = true -> roll_forward hs d = d.
Proof.
  intro H. unfold roll_forward.
  replace (search_fuel hs) with (S (3 * length hs + 2)) by (unfold search_fuel; lia).
  simpl. rewrite H. reflexivity.
Qed.

Lemma roll_backward_busday hs d : is_busday hs d = true -> roll_backward hs d = d.
Proof.
  intro H. unfold roll_backward.
  replace (search_fuel hs) with (S (3 * length hs + 2)) by (unfold search_fuel; lia).
  simpl. rewrite H. reflexivity.
Qed.

Lemma cbd_apply_plus1 hs d :
  cbd_apply hs 1 d = roll_forward hs (roll_backward hs d + 1).
Proof. reflexivity. Qed.

Lemma cbd_apply_minus1 hs d :
  cbd_apply hs (-1) d = roll_backward hs (roll_forward hs d - 1).
Proof. reflexivity. Qed.

Lemma rollforward_spec hs d :
  d <= rollforward hs d /\ is_busday hs (rollforward hs d) = true.
Proof.
  unfold rollforward. destruct (is_busday hs d) eqn:Hd; [split; [lia | exact Hd]|].
  rewrite cbd_apply_plus1.
  destruct (roll_backward_spec hs d) as [Hb1 [Hb2 Hb3]].
  set (rb := roll_backward hs d) in *.
  destruct (roll_forward_spec hs (rb + 1)) as [Hf1 [Hf2 Hf3]].
  split; [|exact Hf2].
  destruct (Z_lt_le_dec (roll_forward hs (rb + 1)) d) as [Hlt|]; [|lia].
  assert (rb <> d) by (intro E; rewrite E in Hb2; congruence).
  rewrite (Hb3 (roll_forward hs (rb + 1))) in Hf2 by lia. discriminate.
Qed.

Lemma rollback_spec hs d :
  rollback hs d <= d /\ is_busday hs (rollback hs d) = true.
Proof.
  unfold rollback. destruct (is_busday hs d) eqn:Hd; [split; [lia | exact Hd]|].
  rewrite cbd_apply_minus1.
  destruct (roll_forward_spec hs d) as [Hf1 [Hf2 Hf3]].
  set (rf := roll_forward hs d) in *.
  destruct (roll_backward_spec hs (rf - 1)) as [Hb1 [Hb2 Hb3]].
  split; [|exact Hb2].
  destruct (Z_lt_le_dec d (roll_backward hs (rf - 1))) as [Hlt|]; [|lia].
  assert (rf <> d) by (intro E; rewrite E in Hf2; congruence).
  rewrite (Hf3 (roll_backward hs (rf - 1))) in Hb2 by lia. discriminate.
Qed.

(** One step of the offset from a valid day lands on a later valid day. *)
Lemma cbd_step_spec hs d :
  is_busday hs d = true ->
  d < cbd_apply hs 1 d /\ is_busday hs (cbd_apply hs 1 d) = true.
Proof.
  intro Hd. rewrite cbd_apply_plus1, (roll_backward_busday hs d Hd).
  destruct (roll_forward_spec hs (d + 1)) as [H1 [H2 _]]. split; [lia | exact H2].
Qed.

Lemma gen_loop_spec hs fuel cur e :
  is_busday hs cur = true ->
  StronglySorted Z.lt (gen_loop hs fuel cur e) /\
  Forall (fun x => cur <= x <= e /\ is_busday hs x = true) (gen_loop hs fuel cur e).
Proof.
  revert cur. induction fuel as [|f IH]; intros cur Hc; simpl.
  - split; constructor.
  - destruct (cur <=? e) eqn:Hle; [|split; constructor].
    apply Z.leb_le in Hle.
    destruct (cur =? e) eqn:Heq.
    + split; repeat constructor; auto; lia.
    + apply Z.eqb_neq in Heq.
      destruct (cbd_step_spec hs cur Hc) as [Hlt Hnb].
      destruct (IH _ Hnb) as [Hs Hf].
      split.
      * constructor; [exact Hs|].
        eapply Forall_impl; [|exact Hf]. simpl. intros x [Hx _]. lia.
      * constructor; [split; [lia | exact Hc]|].
        eapply Forall_impl; [|exact Hf]. simpl. intros x [Hx Hb]. split; [lia | exact Hb].
Qed.

Lemma generate_range_spec hs s e :
  (e < s -> generate_range hs s e = []) /\
  StronglySorted Z.lt (generate_range hs s e) /\
  Forall (fun x => s <= x <= e /\ is_busday hs x = true) (generate_range hs s e).
Proof.
  assert (Hgen : forall s' e', s <= s' -> e' <= e -> is_busday hs s' = true ->
            (e < s -> (if e' <? s' then [] else gen_loop hs (Z.to_nat (e' - s' + 1)) s' e') = []) /\
            StronglySorted Z.lt (if e' <? s' then [] else gen_loop hs (Z.to_nat (e' - s' + 1)) s' e') /\
            Forall (fun x => s <= x <= e /\ is_busday hs x = true)
                   (if e' <? s' then [] else gen_loop hs (Z.to_nat (e' - s' + 1)) s' e')).
  { intros s' e' H1 H2 H3. destruct (e' <? s') eqn:Hlt.
    - repeat split; constructor.
    - apply Z.ltb_ge in Hlt. destruct (gen_loop_spec hs (Z.to_nat (e' - s' + 1)) s' e' H3) as [Hs Hf].
      repeat split; [lia | exact Hs |].
      eapply Forall_impl; [|exact Hf]. simpl. intros x [Hx Hb]. split; [lia | exact Hb]. }
  unfold generate_range.
  destruct (is_busday hs s) eqn:Hs; simpl.
  - destruct (is_busday hs e) eqn:He; simpl.
    + apply Hgen; auto; lia.
    + destruct (rollback_spec hs e). apply Hgen; auto; lia.
  - destruct (rollforward_spec hs s). apply Hgen; auto; lia.
Qed.

Lemma day_range_dates hs da db :
  day_range hs (to_timestamp da) (to_timestamp db) = map to_timestamp (generate_range hs da db).
Proof.
  unfold day_range. rewrite !normalize_to_timestamp, !day_of_to_timestamp. reflexivity.
Qed.

Lemma StronglySorted_map_to_timestamp l :
  StronglySorted Z.lt l -> StronglySorted Z.lt (map to_timestamp l).
Proof.
  induction 1 as [|x l Hl IH Hf]; simpl; constructor; [exact IH|].
  apply Forall_map. eapply Forall_impl; [|exact Hf]. intros y Hy. apply (proj1 (to_timestamp_lt x y)). exact Hy.
Qed.

(* ------------------------------------------------------------------ *)
(** ** Data-frame lemmas *)


Section FrameLemmas.
Context {num : Type}.
Variable num_eq_dec : forall x y : num, {x = y} + {x <> y}.

Lemma dedup_rows_spec (seen l : list (row num)) :
  NoDup (dedup_rows num_eq_dec seen l) /\
  (forall x, In x (dedup_rows num_eq_dec seen l) -> ~ In x seen /\ In x l) /\
  (forall x, In x l -> In x seen \/ In x (dedup_rows num_eq_dec seen l)).
Proof.
  revert seen. induction l as [|r l IH]; intro seen; simpl.
  - split; [constructor|]. split; intros x Hx; contradiction.
  - destruct (in_dec (row_eq_dec num_eq_dec) r seen) as [Hin|Hnin].
    + destruct (IH seen) as [H1 [H2 H3]]. split; [exact H1|]. split.
      * intros x Hx. destruct (H2 x Hx). split; [assumption | right; assumption].
      * intros x [<- | Hx]; [left; exact Hin | auto].
    + destruct (IH (r :: seen)) as [H1 [H2 H3]]. split; [|split].
      * constructor; [|exact H1]. intro Hr. destruct (H2 r Hr) as [Hn _]. apply Hn. left; reflexivity.
      * intros x [<- | Hx]; [split; [exact Hnin | left; reflexivity]|].
        destruct (H2 x Hx) as [Hn Hl].
        split; [intro; apply Hn; right; assumption | right; assumption].
      * intros x [<- | Hx]; [right; left; reflexivity|].
        destruct (H3 x Hx) as [[<- | Hs] | Hd];
          [right; left; reflexivity | left; assumption | right; right; assumption].
Qed.

Lemma date_leb_total a b : date_leb a b = false -> date_leb b a = true.
Proof. destruct a, b; simpl; auto; intros; apply Z.leb_le; apply Z.leb_gt in H; lia. Qed.

Lemma date_leb_trans a b c : date_leb a b = true -> date_leb b c = true -> date_leb a c = true.
Proof. destruct a, b, c; simpl; auto; try discriminate; rewrite !Z.leb_le; lia. Qed.

Lemma insert_by_date_perm (r : row num) l : Permutation (insert_by_date r l) (r :: l).
Proof.
  induction l as [|r' l IH]; simpl; [reflexivity|].
  destruct (date_leb (r_date r) (r_date r')); [reflexivity|].
  rewrite IH. apply perm_swap.
Qed.

Lemma sort_by_date_perm (l : list (row num)) : Permutation (sort_by_date l) l.
Proof.
  induction l as [|r l IH]; simpl; [reflexivity|].
  rewrite insert_by_date_perm. constructor. exact IH.
Qed.

Lemma insert_by_date_sorted (r : row num) l :
  Sorted row_date_le l -> Sorted row_date_le (insert_by_date r l).
Proof.
  induction 1 as [|r' l Hs IH Hhd]; simpl.
  - repeat constructor.
  - destruct (date_leb (r_date r) (r_date r')) eqn:E.
    + constructor; [constructor; assumption | constructor; exact E].
    + constructor; [exact IH|].
      destruct l as [|r'' l]; simpl.
      * constructor. apply date_leb_total. exact E.
      * inversion Hhd; subst. simpl in IH |- *.
        destruct (date_leb (r_date r) (r_date r'')); constructor;
          [apply date_leb_total; exact E | assumption].
Qed.

Lemma sort_by_date_sorted (l : list (row num)) : Sorted row_date_le (sort_by_date l).
Proof. induction l; simpl; [constructor | apply insert_by_date_sorted; assumption]. Qed.

Lemma sort_values_rows key (f g : frame num) :
  sort_values key f = inr g -> rows g = sort_by_date (rows f).
Proof. unfold sort_values. destruct (has_column key f); intro H; inversion H; reflexivity. Qed.
End FrameLemmas.

(* ------------------------------------------------------------------ *)
(** ** Manager lemmas *)

Lemma validate_quiet {num} hs clock date (w : world num) :
  exists b evs, _validate_date hs clock date w = (inr b, mk_world (store w) (trace w ++ evs)) /\
                Forall quiet evs.
Proof.
  destruct w as [st tr]. unfold _validate_date.
  destruct (negb (is_business_day hs date)).
  { exists false, [Log WARNING]. split; [reflexivity | repeat constructor]. }
  destruct (today clock <? date).
  { exists false, [Log WARNING]. split; [reflexivity | repeat constructor]. }
  destruct (5 <? _).
  { exists false, [Log WARNING]. split; [reflexivity | repeat constructor]. }
  exists true, []. rewrite app_nil_r. split; [reflexivity | constructor].
Qed.

Section ManagerLemmas.
Context {num : Type}.
Variable num_eq_dec : forall x y : num, {x = y} + {x <> y}.
Variable hs : holiday_set.
Variable download : Z -> exn + list (xml_param num).

Lemma scrape_and_update_present clock date (w : world num) f :
  store w = Some f -> frame_empty f = false -> has_column "date" f = true ->
  date_present f date = true ->
  exists w', scrape_and_update num_eq_dec hs download clock date w = (inr false, w') /\
             store w' = store w /\
             exists evs, trace w' = trace w ++ evs /\ Forall quiet evs.
Proof.
  intros Hs Hfe Hhc Hdp.
  destruct (validate_quiet hs clock date w) as [b [evs [Hv Hq]]].
  unfold scrape_and_update, bind. rewrite Hv.
  destruct b; simpl.
  - rewrite Hs. simpl. rewrite Hfe, Hhc. simpl. rewrite Hdp. simpl.
    eexists; split; [reflexivity|]. split; [reflexivity|].
    exists (evs ++ [ReadStore; Log INFO; Log INFO]). rewrite <- !app_assoc. split; [reflexivity|].
    apply Forall_app. split; [exact Hq | repeat constructor].
  - eexists; split; [reflexivity|]. split; [reflexivity|]. exists evs. split; [reflexivity | exact Hq].
Qed.
End ManagerLemmas.

Ltac split_M H :=
  repeat (simpl in H;
          match type of H with
          | context [match ?x with _ => _ end] => let E := fresh "E" in destruct x eqn:E
          end);
  simpl in H; try discriminate H.

Lemma merged_frame_spec {num} (num_eq_dec : forall x y : num, {x = y} + {x <> y}) c f :
  sort_values "date" (drop_duplicates num_eq_dec c) = inr f ->
  NoDup (rows f) /\ Sorted row_date_le (rows f).
Proof.
  intro H. rewrite (sort_values_rows _ _ _ H). simpl. split.
  - eapply Permutation_NoDup; [symmetry; apply sort_by_date_perm|].
    apply (dedup_rows_spec num_eq_dec).
  - apply sort_by_date_sorted.
Qed.

Lemma merged_frame_has_date {num} (num_eq_dec : forall x y : num, {x = y} + {x <> y})
  (e : frame num) date ps f :
  ps <> [] ->
  sort_values "date" (drop_duplicates num_eq_dec (concat e (DataFrame (parse_params date ps)))) = inr f ->
  frame_empty f = false /\ has_column "date" f = true /\ date_present f date = true.
Proof.
  intros Hps H.
  assert (Hcol : has_column "date" (drop_duplicates num_eq_dec
                   (concat e (DataFrame (parse_params date ps)))) = true).
  { unfold sort_values in H. destruct (has_column _ _); [reflexivity | discriminate]. }
  assert (Hcols : columns f = columns (drop_duplicates num_eq_dec
                   (concat e (DataFrame (parse_params date ps))))).
  { unfold sort_values in H. rewrite Hcol in H. inversion H. reflexivity. }
  destruct ps as [|p ps]; [congruence|].
  set (r := mk_row (Some date) (type_mapping (p_grupo p)) (p_b1 p) (p_b2 p) (p_b3 p)
                   (p_b4 p) (p_l1 p) (p_l2 p)).
  assert (Hr : In r (rows f)).
  { rewrite (sort_values_rows _ _ _ H). eapply Permutation_in; [symmetry; apply sort_by_date_perm|].
    simpl. destruct (proj2 (proj2 (dedup_rows_spec num_eq_dec [] (rows e ++ r :: parse_params date ps))) r)
      as [[]|Hin]; [|exact Hin].
    apply in_or_app. right. left. reflexivity. }
  split; [|split].
  - unfold frame_empty. unfold has_column in Hcol. rewrite <- Hcols in Hcol.
    destruct (columns f); [discriminate|]. destruct (rows f); [contradiction | reflexivity].
  - unfold has_column. rewrite Hcols. exact Hcol.
  - unfold date_present. apply existsb_exists. exists r. split; [exact Hr|]. simpl. apply Z.eqb_refl.
Qed.

(** A run that stored the records of a non-empty fetch leaves the date in
    the dataset, so a second run for the same date is skipped. *)
Lemma scrape_and_update_second_run_skips {num} (num_eq_dec : forall x y : num, {x = y} + {x <> y})
  hs download clock1 clock2 date ps (w w1 : world num) :
  download date = inr ps -> ps <> [] ->
  scrape_and_update num_eq_dec hs download clock1 date w = (inr true, w1) ->
  exists w2, scrape_and_update num_eq_dec hs download clock2 date w1 = (inr false, w2) /\
             store w2 = store w1.
Proof.
  intros Hdl Hps H.
  assert (Hf : exists f, store w1 = Some f /\ frame_empty f = false /\
                         has_column "date" f = true /\ date_present f date = true).
  { unfold scrape_and_update, bind, fetch, scrape, try_except in H. rewrite Hdl in H.
    destruct (validate_quiet hs clock1 date w) as [b [evs [Hv _]]]. rewrite Hv in H.
    split_M H.
    all: inversion H; subst; simpl; eexists; split; [reflexivity|];
         eapply merged_frame_has_date; eassumption. }
  destruct Hf as [f [Hs [H1 [H2 H3]]]].
  destruct (scrape_and_update_present num_eq_dec hs download clock2 date w1 f Hs H1 H2 H3)
    as [w2 [Hrun [Hst _]]].
  exists w2. split; assumption.
Qed.

(** The fetch error of the scraper is logged and raised; the file is not
    written. *)
Lemma scrape_and_update_fetch_error {num} (num_eq_dec : forall x y : num, {x = y} + {x <> y})
  hs download clock date e (w : world num) :
  download date = inl e ->
  exists r w', scrape_and_update num_eq_dec hs download clock date w = (r, w') /\
    store w' = store w /\
    exists evs, trace w' = trace w ++ evs /\ ~ In WriteStore evs /\
      (r = inr false \/ (r = inl e /\ In (Fetch date) evs /\ In (Log ERROR) evs)).
Proof.
  intro Hdl. destruct w as [st tr].
  destruct (scrape_and_update num_eq_dec hs download clock date (mk_world st tr)) as [r w'] eqn:H.
  exists r, w'. split; [reflexivity|].
  unfold scrape_and_update, bind, fetch, scrape, try_except in H. rewrite Hdl in H.
  destruct (validate_quiet hs clock date (mk_world st tr)) as [b [evs [Hv Hq]]]. rewrite Hv in H.
  assert (Hnw : ~ In WriteStore evs).
  { intro Hin. rewrite Forall_forall in Hq. exact (Hq _ Hin). }
  split_M H.
  all: inversion H; subst; simpl; split; [reflexivity|];
       eexists; split; [rewrite <- ?app_assoc; reflexivity|];
       split; [rewrite ?in_app_iff; simpl; intuition discriminate|].
  all: first [left; reflexivity
             | right; split; [reflexivity|]; split; apply in_or_app; right; simpl; tauto].
Qed.

(* ================================================================== *)
(** * Properties of the specification *)

(** C1.  Today is Monday 2024-01-15 (no holidays), and the date
    five business-day steps before it is Monday 2024-01-08.  The spec and the
    docstring of [_validate_date] ("not older than 5 business days") accept
    it, but the code compares [len(day_range(date, today))], which counts
    both ends (6 here), with 5 and rejects it.  The date six steps back is
    rejected as well. *)
Theorem validate_date_rejects_five_steps_back :
  let today0 := today monday_10am in
  let five_back := Nat.iter 5 (previous_business_day []) today0 in
  let six_back := Nat.iter 6 (previous_business_day []) today0 in
  five_back = to_timestamp 19730 /\
  is_business_day [] five_back = true /\
  length (day_range [] five_back today0) = 6%nat /\
  fst (@_validate_date Z [] monday_10am five_back (mk_world None [])) = inr false /\
  fst (@_validate_date Z [] monday_10am six_back (mk_world None [])) = inr false.
Proof. vm_compute. repeat split. Qed.

(** C2.  [day_count] looks up [self.bday_range], which [BRCal]
    does not define: for every pair of dates it raises [AttributeError]
    instead of returning [max(0, len(day_range(a, b)) - 1)]. *)
Theorem day_count_raises_attribute_error hs a b :
  day_count hs a b = inl (AttributeError "bday_range") /\
  BRCal_range_method hs "day_range" = Some (day_range hs).
Proof. split; reflexivity. Qed.

(** C3.  When the stored dataset is non-empty, has a [date] column and a row
    of the requested date, [scrape_and_update] returns [False] without
    calling the scraper and without writing the file (only reads and log
    records happen), so the stored rows are unchanged; running it a second
    time (at any clock) does the same, and the store after both runs is the
    store after the first. *)
Theorem scrape_and_update_idempotent_on_present_date {num}
  (num_eq_dec : forall x y : num, {x = y} + {x <> y}) hs download clock1 clock2 date
  (w : world num) (f : frame num) :
  store w = Some f -> frame_empty f = false -> has_column "date" f = true ->
  date_present f date = true ->
  exists w1 w2,
    scrape_and_update num_eq_dec hs download clock1 date w = (inr false, w1) /\
    scrape_and_update num_eq_dec hs download clock2 date w1 = (inr false, w2) /\
    store w1 = store w /\ store w2 = store w1 /\
    (exists evs, trace w1 = trace w ++ evs /\ Forall quiet evs) /\
    (exists evs, trace w2 = trace w1 ++ evs /\ Forall quiet evs).
Proof.
  intros Hs H1 H2 H3.
  destruct (scrape_and_update_present num_eq_dec hs download clock1 date w f Hs H1 H2 H3)
    as [w1 [R1 [S1 T1]]].
  assert (Hs1 : store w1 = Some f) by (rewrite S1; exact Hs).
  destruct (scrape_and_update_present num_eq_dec hs download clock2 date w1 f Hs1 H1 H2 H3)
    as [w2 [R2 [S2 T2]]].
  exists w1, w2. repeat split; assumption.
Qed.

Lemma scrape_and_update_idempotent_on_present_date_witness :
  store (mk_world (Some stored_jan15) []) = Some stored_jan15 /\
  frame_empty stored_jan15 = false /\ has_column "date" stored_jan15 = true /\
  date_present stored_jan15 monday_2024_01_15 = true /\
  exists w1 w2,
    scrape_and_update Z.eq_dec [] download_one monday_10am monday_2024_01_15
      (mk_world (Some stored_jan15) []) = (inr false, w1) /\
    scrape_and_update Z.eq_dec [] download_one monday_10am monday_2024_01_15 w1 = (inr false, w2) /\
    store w1 = Some stored_jan15 /\ store w2 = store w1 /\
    (exists evs, trace w1 = [] ++ evs /\ Forall quiet evs) /\
    (exists evs, trace w2 = trace w1 ++ evs /\ Forall quiet evs).
Proof.
  refine (conj eq_refl (conj eq_refl (conj eq_refl (conj eq_refl _)))).
  apply (scrape_and_update_idempotent_on_present_date Z.eq_dec [] download_one
           monday_10am monday_10am monday_2024_01_15 (mk_world (Some stored_jan15) []) stored_jan15);
    vm_compute; reflexivity.
Defined.

(** C4.  After a run that returns [True], the stored dataset has no two
    identical rows and its rows are sorted by ascending [date] (rows without
    a date, pandas' NaT, come last as with [na_position="last"]). *)
Theorem scrape_and_update_true_dedup_sorted {num} (num_eq_dec : forall x y : num, {x = y} + {x <> y})
  hs download clock date (w w' : world num) :
  scrape_and_update num_eq_dec hs download clock date w = (inr true, w') ->
  exists f, store w' = Some f /\ NoDup (rows f) /\ Sorted row_date_le (rows f).
Proof.
  intro H. unfold scrape_and_update, bind in H.
  destruct (validate_quiet hs clock date w) as [b [evs [Hv _]]]. rewrite Hv in H.
  split_M H.
  all: inversion H; subst; simpl; eexists; split; [reflexivity|];
       eapply merged_frame_spec; eassumption.
Qed.

Lemma scrape_and_update_true_dedup_sorted_witness :
  let friday := monday_2024_01_15 - 3 * DAY_NANOS in
  let run := scrape_and_update Z.eq_dec [] download_one monday_10am friday
               (mk_world (Some stored_jan15) []) in
  run = (inr true, snd run) /\
  exists f, store (snd run) = Some f /\ NoDup (rows f) /\ Sorted row_date_le (rows f).
Proof.
  intros friday run. split; [vm_compute; reflexivity|].
  apply (scrape_and_update_true_dedup_sorted Z.eq_dec [] download_one monday_10am friday
           (mk_world (Some stored_jan15) [])).
  vm_compute. reflexivity.
Defined.

(** C5.  For every timestamp [d] and holiday set, [previous_business_day d]
    is strictly earlier than [d] and is a business day, also when [d] is a
    weekend day or a holiday. *)
Theorem previous_business_day_before_and_business hs d :
  previous_business_day hs d < d /\
  is_business_day hs (previous_business_day hs d) = true.
Proof.
  unfold previous_business_day. rewrite normalize_eq, day_of_to_timestamp.
  set (d0 := day_of d).
  rewrite cbd_apply_minus1.
  destruct (roll_forward_spec hs d0) as [Hf1 [Hf2 Hf3]].
  destruct (roll_backward_spec hs (roll_forward hs d0 - 1)) as [Hb1 [Hb2 Hb3]].
  set (p := roll_backward hs (roll_forward hs d0 - 1)) in *.
  assert (Hp : p < d0).
  { destruct (Z_lt_le_dec p d0) as [|Hle]; [assumption|].
    rewrite (Hf3 p) in Hb2 by lia. discriminate. }
  split.
  - pose proof (to_timestamp_day_of_le d). apply to_timestamp_lt in Hp. unfold d0 in Hp. lia.
  - rewrite is_business_day_to_timestamp. exact Hb2.
Qed.

(** C6.  For every pair of calendar dates [a], [b] (midnight timestamps):
    [day_range a b] is empty when [a > b]; it is strictly increasing; each
    element is a business day lying between [a] and [b], so its first element
    is at least [a] and its last at most [b]. *)
Theorem day_range_sorted_business_bounded hs da db :
  let a := to_timestamp da in
  let b := to_timestamp db in
  (b < a -> day_range hs a b = []) /\
  Sorted Z.lt (day_range hs a b) /\
  Forall (fun x => is_business_day hs x = true /\ a <= x <= b) (day_range hs a b).
Proof.
  intros a b. unfold a, b. rewrite day_range_dates.
  destruct (generate_range_spec hs da db) as [He [Hs Hf]].
  split; [|split].
  - intro Hlt. apply to_timestamp_lt in Hlt. rewrite He by exact Hlt. reflexivity.
  - apply StronglySorted_Sorted. apply StronglySorted_map_to_timestamp. exact Hs.
  - apply Forall_map. eapply Forall_impl; [|exact Hf]. simpl. intros x [Hx Hb].
    rewrite is_business_day_to_timestamp. split; [exact Hb|].
    split; apply (proj1 (to_timestamp_le _ _)); lia.
Qed.

(** C7.  [is_business_day d] holds exactly when the weekday of [d]
    normalised to midnight is Monday to Friday and that date is not in the
    holiday set. *)
Theorem is_business_day_iff hs d :
  is_business_day hs d = true <->
  weekday (normalize d) < 5 /\ ~ In (day_of (normalize d)) hs.
Proof.
  unfold is_business_day. rewrite andb_true_iff, Z.ltb_lt, negb_true_iff.
  split; intros [H1 H2]; split; auto.
  - intro Hin. apply mem_holiday_In in Hin. congruence.
  - destruct (mem_holiday hs (day_of (normalize d))) eqn:E; [|reflexivity].
    apply mem_holiday_In in E. contradiction.
Qed.

(** C8.  When the scraper raises, the run logs the error, raises
    it and writes nothing ([scrape_and_update_fetch_error]).  But the run
    also raises when the scraper does not: on Monday 2024-01-15, with no
    Feather file and a scraper answer without [<PARAMETRO>] elements,
    [sort_values("date")] raises [KeyError: 'date'] (the defect of C10). *)
Theorem scrape_and_update_raises_without_fetch_error :
  download_none monday_2024_01_15 = inr [] /\
  fst (scrape_and_update Z.eq_dec [] download_none monday_10am monday_2024_01_15
         (mk_world None [])) = inl (KeyError "date").
Proof. vm_compute. split; reflexivity. Qed.

(** C9.  [_validate_date] compares the date it is given with
    [today] (midnight) without normalising it: Monday 2024-01-15 10:00,
    validated at that instant, is rejected as a future date, while the same
    day at midnight is accepted. *)
Theorem validate_date_rejects_today_with_time :
  is_business_day [] monday_10am = true /\
  normalize monday_10am = today monday_10am /\
  fst (@_validate_date Z [] monday_10am monday_10am (mk_world None [])) = inr false /\
  fst (@_validate_date Z [] monday_10am (normalize monday_10am) (mk_world None [])) = inr true.
Proof. vm_compute. repeat split. Qed.

(** C10.  With no Feather file, a validated date and a scraper answer
    without records, the run raises [KeyError "date"] at the merge's
    [sort_values("date")] (the concatenated frame has no columns); the file
    is not created and nothing is written. *)
Theorem scrape_and_update_empty_fetch_no_store_raises {num}
  (num_eq_dec : forall x y : num, {x = y} + {x <> y}) hs download clock date (w : world num) :
  store w = None ->
  fst (@_validate_date num hs clock date w) = inr true ->
  download date = inr [] ->
  exists w', scrape_and_update num_eq_dec hs download clock date w = (inl (KeyError "date"), w') /\
             store w' = None /\
             exists evs, trace w' = trace w ++ evs /\ ~ In WriteStore evs.
Proof.
  intros Hs Hval Hdl.
  destruct (validate_quiet hs clock date w) as [b [evs [Hv Hq]]].
  rewrite Hv in Hval. simpl in Hval. inversion Hval; subst b.
  unfold scrape_and_update, bind, fetch, scrape, try_except. rewrite Hv, Hdl. simpl.
  rewrite Hs. simpl.
  eexists; split; [reflexivity|]. split; [reflexivity|].
  eexists; split; [rewrite <- !app_assoc; reflexivity|].
  rewrite in_app_iff. intros [Hin|Hin].
  - rewrite Forall_forall in Hq. exact (Hq _ Hin).
  - simpl in Hin. intuition discriminate.
Qed.

Lemma scrape_and_update_empty_fetch_no_store_raises_witness :
  store (mk_world (num := Z) None []) = None /\
  fst (@_validate_date Z [] monday_10am monday_2024_01_15 (mk_world None [])) = inr true /\
  download_none monday_2024_01_15 = inr [] /\
  exists w', scrape_and_update Z.eq_dec [] download_none monday_10am monday_2024_01_15
               (mk_world None []) = (inl (KeyError "date"), w') /\
             store w' = None /\
             exists evs, trace w' = [] ++ evs /\ ~ In WriteStore evs.
Proof.
  split; [reflexivity|]. split; [vm_compute; reflexivity|]. split; [reflexivity|].
  apply (scrape_and_update_empty_fetch_no_store_raises Z.eq_dec [] download_none
           monday_10am monday_2024_01_15 (mk_world None [])); vm_compute; reflexivity.
Defined.

(* ================================================================== *)
(** * Further properties of the code *)

(** ** [download_xml] *)

Lemma download_attempts_answer {B} (post : nat -> post_outcome B) n a k r :
  (a + n = max_retries)%nat -> (a <= k < max_retries)%nat ->
  (forall j, (a <= j < k)%nat -> exists e, post j = PostRequestError e) ->
  match post k with
  | PostOk c => r = inr c
  | PostOtherError e => r = inl e
  | PostRequestError _ => False
  end ->
  download_attempts post (seq a n) = (Some r, retry_trace a k).
Proof.
  revert a. induction n as [|n IH]; intros a Hn Hk Hfail Hans; [unfold max_retries in *; lia|].
  simpl. destruct (Nat.eq_dec a k) as [<-|Hne].
  - unfold retry_trace. rewrite Nat.sub_diag. simpl.
    destruct (post a); subst; try contradiction; reflexivity.
  - destruct (Hfail a ltac:(lia)) as [e He]. rewrite He.
    replace (Nat.ltb a 4) with true
      by (symmetry; apply Nat.ltb_lt; unfold max_retries in *; lia).
    rewrite (IH (S a)); [|lia|lia|intros j Hj; apply Hfail; lia|exact Hans].
    unfold retry_trace. replace (k - a)%nat with (S (k - S a)) by lia. reflexivity.
Qed.

Lemma download_attempts_all_fail {B} (post : nat -> post_outcome B) n a e :
  (a + n = max_retries)%nat -> (a < max_retries)%nat ->
  (forall j, (a <= j < max_retries - 1)%nat -> exists e', post j = PostRequestError e') ->
  post (max_retries - 1)%nat = PostRequestError e ->
  download_attempts post (seq a n) = (Some (inl e), retry_trace a (max_retries - 1)).
Proof.
  revert a. induction n as [|n IH]; intros a Hn Ha Hfail Hlast; [unfold max_retries in *; lia|].
  simpl. destruct (Nat.eq_dec a (max_retries - 1)) as [Heq|Hne].
  - rewrite Heq, Hlast. simpl. unfold retry_trace. rewrite Nat.sub_diag. reflexivity.
  - destruct (Hfail a ltac:(unfold max_retries in *; lia)) as [e' He]. rewrite He.
    replace (Nat.ltb a 4) with true
      by (symmetry; apply Nat.ltb_lt; unfold max_retries in *; lia).
    rewrite (IH (S a)); [|lia|unfold max_retries in *; lia|intros j Hj; apply Hfail; lia|exact Hlast].
    unfold retry_trace, max_retries in *.
    destruct a as [|[|[|[|a]]]]; simpl in *; try reflexivity; lia.
Qed.

(** If the [k]-th POST ([k < 5]) is the first that does not fail with a
    request error and it succeeds, [download_xml] returns its content after
    [k + 1] POSTs with one sleep between consecutive ones. *)
Theorem download_xml_first_success {B} (post : nat -> post_outcome B) k c :
  (k < max_retries)%nat ->
  (forall j, (j < k)%nat -> exists e, post j = PostRequestError e) ->
  post k = PostOk c ->
  download_xml post = (Some (inr c), retry_trace 0 k).
Proof.
  intros Hk Hfail Hok. apply download_attempts_answer; [reflexivity|lia| |].
  - intros j Hj. apply Hfail. lia.
  - rewrite Hok. reflexivity.
Qed.

Lemma download_xml_first_success_witness :
  let post := fun j : nat => if Nat.ltb j 2 then PostRequestError (FetchError "503")
                            else PostOk "xml"%string in
  download_xml post = (Some (inr "xml"%string), [Post 0; Sleep; Post 1; Sleep; Post 2]).
Proof.
  intro post. apply (download_xml_first_success post 2 "xml"%string).
  - unfold max_retries; lia.
  - intros j Hj. exists (FetchError "503"). unfold post.
    replace (Nat.ltb j 2) with true by (symmetry; apply Nat.ltb_lt; lia). reflexivity.
  - reflexivity.
Defined.

(** When all five POSTs fail with request errors, [download_xml] raises the
    fifth error, after five POSTs and four sleeps; it never posts a sixth
    time. *)
Theorem download_xml_gives_up_after_five {B} (post : nat -> post_outcome B) e :
  (forall j, (j < max_retries - 1)%nat -> exists e', post j = PostRequestError e') ->
  post (max_retries - 1)%nat = PostRequestError e ->
  download_xml post = (Some (inl e), [Post 0; Sleep; Post 1; Sleep; Post 2; Sleep; Post 3; Sleep; Post 4]).
Proof.
  intros Hfail Hlast. unfold download_xml.
  rewrite (download_attempts_all_fail post max_retries 0 e); [reflexivity|reflexivity|unfold max_retries; lia| |exact Hlast].
  intros j Hj. apply Hfail. lia.
Qed.

Lemma download_xml_gives_up_after_five_witness :
  download_xml (fun j : nat => @PostRequestError string (FetchError "timeout"))
  = (Some (inl (FetchError "timeout")),
     [Post 0; Sleep; Post 1; Sleep; Post 2; Sleep; Post 3; Sleep; Post 4]).
Proof.
  apply download_xml_gives_up_after_five; [|reflexivity].
  intros j _. exists (FetchError "timeout"). reflexivity.
Defined.

(** An exception that is not a [RequestException] escapes the [except]
    clause: it is raised at the attempt where it occurs, without retry. *)
Theorem download_xml_other_error_not_retried {B} (post : nat -> post_outcome B) k e :
  (k < max_retries)%nat ->
  (forall j, (j < k)%nat -> exists e', post j = PostRequestError e') ->
  post k = PostOtherError e ->
  download_xml post = (Some (inl e), retry_trace 0 k).
Proof.
  intros Hk Hfail Hoth. apply download_attempts_answer; [reflexivity|lia| |].
  - intros j Hj. apply Hfail. lia.
  - rewrite Hoth. reflexivity.
Qed.

Lemma download_xml_other_error_not_retried_witness :
  download_xml (fun j : nat => @PostOtherError string (FetchError "bad form"))
  = (Some (inl (FetchError "bad form")), [Post 0]).
Proof.
  apply (download_xml_other_error_not_retried _ 0); [unfold max_retries; lia| |reflexivity].
  intros j Hj. lia.
Defined.

(** The loop never falls through to the implicit [return None]: every call
    returns content or raises. *)
Theorem download_xml_never_returns_none {B} (post : nat -> post_outcome B) :
  fst (download_xml post) <> None.
Proof.
  unfold download_xml, max_retries. simpl.
  destruct (post 0%nat); simpl; try discriminate.
  destruct (post 1%nat); simpl; try discriminate.
  destruct (post 2%nat); simpl; try discriminate.
  destruct (post 3%nat); simpl; try discriminate.
  destruct (post 4%nat); simpl; discriminate.
Qed.

(** ** [scrape_and_update]: effects and errors *)

Lemma count_events_app p a b :
  count_events p (a ++ b) = (count_events p a + count_events p b)%nat.
Proof. unfold count_events. rewrite filter_app, length_app. reflexivity. Qed.

Lemma quiet_counts evs :
  Forall quiet evs -> count_events is_write evs = 0%nat /\ count_events is_fetch evs = 0%nat.
Proof.
  induction 1 as [|ev evs Hq _ [IH1 IH2]]; [split; reflexivity|].
  destruct ev; simpl in Hq; try contradiction; unfold count_events in *; simpl; split; assumption.
Qed.

Lemma quiet_no_fetch evs d : Forall quiet evs -> ~ In (Fetch d) evs.
Proof. intros Hq Hin. rewrite Forall_forall in Hq. exact (Hq _ Hin). Qed.

Lemma rows_DataFrame {num} (rs : list (row num)) : rows (DataFrame rs) = rs.
Proof. destruct rs; reflexivity. Qed.

Lemma has_column_concat {num} c (f1 f2 : frame num) :
  has_column c (concat f1 f2) = has_column c f1 || has_column c f2.
Proof.
  unfold has_column, concat. simpl. rewrite existsb_app.
  destruct (existsb (String.eqb c) (columns f1)) eqn:E1; [reflexivity|]. simpl.
  induction (columns f2) as [|x l IH]; [reflexivity|]. simpl.
  destruct (String.eqb c x) eqn:Ecx.
  - apply String.eqb_eq in Ecx. subst x. rewrite E1. simpl. rewrite String.eqb_refl. reflexivity.
  - destruct (negb (existsb (String.eqb x) (columns f1))); simpl; rewrite ?Ecx; exact IH.
Qed.

Lemma has_column_DataFrame {num} c date (ps : list (xml_param num)) :
  has_column c (DataFrame (parse_params date ps)) =
  match ps with [] => false | _ => existsb (String.eqb c) ["date"; "type"; "b1"; "b2"; "b3"; "b4"; "l1"; "l2"]%string end.
Proof. destruct ps; reflexivity. Qed.

Lemma sort_values_error {num} k (f : frame num) e :
  sort_values k f = inl e -> e = KeyError k /\ has_column k f = false.
Proof.
  unfold sort_values. destruct (has_column k f); intro H; inversion H; split; reflexivity.
Qed.

Lemma merged_rows {num} (num_eq_dec : forall x y : num, {x = y} + {x <> y}) (e : frame num) rs f :
  sort_values "date" (drop_duplicates num_eq_dec (concat e (DataFrame rs))) = inr f ->
  forall r, In r (rows f) <-> In r (rows e) \/ In r rs.
Proof.
  intros H r. rewrite (sort_values_rows _ _ _ H). simpl. rewrite rows_DataFrame.
  destruct (dedup_rows_spec num_eq_dec [] (rows e ++ rs)) as [_ [H2 H3]]. split.
  - intro Hin. apply (Permutation_in _ (sort_by_date_perm _)) in Hin.
    apply in_app_or. exact (proj2 (H2 r Hin)).
  - intro Hin. apply (Permutation_in _ (Permutation_sym (sort_by_date_perm _))).
    destruct (H3 r (in_or_app _ _ _ Hin)) as [[]|Hd]. exact Hd.
Qed.

Lemma validate_rejects {num} hs clock date (w : world num) :
  is_business_day hs date = false \/ today clock < date \/
  5 < Z.of_nat (length (day_range hs date (today clock))) ->
  _validate_date hs clock date w = (inr false, mk_world (store w) (trace w ++ [Log WARNING])).
Proof.
  intro H. unfold _validate_date.
  destruct (is_business_day hs date); simpl; [|reflexivity].
  destruct (today clock <? date) eqn:E1; [reflexivity|].
  destruct (5 <? _) eqn:E2; [reflexivity|].
  apply Z.ltb_ge in E1, E2. destruct H as [H|[H|H]]; [discriminate|lia|lia].
Qed.

Lemma validate_accepts {num} hs clock date (w : world num) b w' :
  _validate_date hs clock date w = (inr b, w') -> b = true -> w' = w.
Proof.
  intros H ->. unfold _validate_date in H.
  destruct (negb _); [inversion H|]. destruct (_ <? _); [inversion H|].
  destruct (5 <? _); inversion H; reflexivity.
Qed.

(** A date that fails validation (not a business day, in the future, or
    more than five business days in the range up to today) is rejected with
    one warning: the file is neither read nor written and the scraper is not
    called. *)
Theorem scrape_and_update_rejects_invalid_date {num} (num_eq_dec : forall x y : num, {x = y} + {x <> y})
  hs download clock date (w : world num) :
  is_business_day hs date = false \/ today clock < date \/
  5 < Z.of_nat (length (day_range hs date (today clock))) ->
  scrape_and_update num_eq_dec hs download clock date w =
  (inr false, mk_world (store w) (trace w ++ [Log WARNING])).
Proof.
  intro H. unfold scrape_and_update, bind. rewrite (validate_rejects hs clock date w H). reflexivity.
Qed.

Lemma scrape_and_update_rejects_invalid_date_witness :
  scrape_and_update Z.eq_dec [] download_none monday_10am (to_timestamp 19735) (mk_world None [])
  = (inr false, mk_world None [Log WARNING]).
Proof.
  exact (scrape_and_update_rejects_invalid_date Z.eq_dec [] download_none monday_10am
           (to_timestamp 19735) (mk_world None []) (or_introl (eq_refl false))).
Defined.

(** A run raises only two ways: the scraper's own exception, re-raised;
    or [KeyError('date')] from [sort_values], when the scraper returned no
    record and the stored dataset (if any) has no [date] column. *)
Theorem scrape_and_update_error_sources {num} (num_eq_dec : forall x y : num, {x = y} + {x <> y})
  hs download clock date (w w' : world num) e :
  scrape_and_update num_eq_dec hs download clock date w = (inl e, w') ->
  download date = inl e \/
  (e = KeyError "date" /\ download date = inr [] /\
   forall f, store w = Some f -> has_column "date" f = false).
Proof.
  intro H. destruct w as [st tr].
  unfold scrape_and_update, bind, fetch, scrape, try_except, lift in H.
  destruct (validate_quiet hs clock date (mk_world st tr)) as [b [evs [Hv _]]]. rewrite Hv in H.
  destruct b; simpl in H; [|discriminate].
  destruct (download date) as [e'|ps] eqn:Hdl.
  - left. split_M H. all: inversion H; subst; reflexivity.
  - right. split_M H. all: inversion H; subst.
    all: match goal with
         | E : sort_values _ _ = inl _ |- _ =>
             apply sort_values_error in E; destruct E as [-> Hc]
         end.
    all: change (has_column "date" (concat (match st with Some f => f | None => empty_frame end)
                                    (DataFrame (parse_params date ps))) = false) in Hc;
         rewrite has_column_concat, has_column_DataFrame in Hc; apply orb_false_iff in Hc;
         destruct Hc as [Hc1 Hc2]; destruct ps; [|discriminate Hc2];
         split; [reflexivity|]; split; [reflexivity|];
         intros f Hf; simpl in Hf; subst st; exact Hc1.
Qed.

Lemma scrape_and_update_error_sources_witness :
  let w := mk_world (num := Z) None [] in
  let run := scrape_and_update Z.eq_dec [] download_none monday_10am monday_2024_01_15 w in
  run = (inl (KeyError "date"), snd run) /\
  (download_none monday_2024_01_15 = inl (KeyError "date") \/
   (KeyError "date" = KeyError "date" /\ download_none monday_2024_01_15 = inr [] /\
    forall f, store w = Some f -> has_column "date" f = false)).
Proof.
  intros w run. split; [vm_compute; reflexivity|].
  apply (scrape_and_update_error_sources Z.eq_dec [] download_none monday_10am monday_2024_01_15
           w (snd run)).
  vm_compute. reflexivity.
Defined.

(** A run writes the file exactly once, and calls the scraper exactly once,
    when it returns [True]; in every other outcome (skip or exception) the
    file is not written and keeps its content. *)
Theorem scrape_and_update_write_count {num} (num_eq_dec : forall x y : num, {x = y} + {x <> y})
  hs download clock date (w w' : world num) r :
  scrape_and_update num_eq_dec hs download clock date w = (r, w') ->
  exists evs, trace w' = trace w ++ evs /\
    (r = inr true -> count_events is_write evs = 1%nat /\ count_events is_fetch evs = 1%nat) /\
    (r <> inr true -> count_events is_write evs = 0%nat /\ store w' = store w).
Proof.
  intro H. destruct w as [st tr].
  unfold scrape_and_update, bind, fetch, scrape, try_except, lift in H.
  destruct (validate_quiet hs clock date (mk_world st tr)) as [b [evs [Hv Hq]]]. rewrite Hv in H.
  destruct (quiet_counts evs Hq) as [Hw Hf].
  destruct b; simpl in H.
  2: { inversion H; subst. exists evs. split; [reflexivity|].
       split; [intro; discriminate | intros _; split; [exact Hw | reflexivity]]. }
  destruct (download date); split_M H. all: inversion H; subst; simpl.
  all: eexists; split; [rewrite <- ?app_assoc; reflexivity|].
  all: rewrite ?count_events_app, ?Hw, ?Hf; unfold count_events; simpl.
  all: split; intro Hr; try discriminate Hr; try (exfalso; apply Hr; reflexivity);
       split; reflexivity.
Qed.

Lemma scrape_and_update_write_count_witness :
  let run := scrape_and_update Z.eq_dec [] download_one monday_10am monday_2024_01_15
               (mk_world None []) in
  run = (fst run, snd run) /\
  exists evs, trace (snd run) = trace (mk_world (num := Z) None []) ++ evs /\
    (fst run = inr true -> count_events is_write evs = 1%nat /\ count_events is_fetch evs = 1%nat) /\
    (fst run <> inr true -> count_events is_write evs = 0%nat /\
                            store (snd run) = store (mk_world (num := Z) None [])).
Proof.
  intro run. split; [reflexivity|].
  apply (scrape_and_update_write_count Z.eq_dec [] download_one monday_10am monday_2024_01_15
           (mk_world None []) (snd run) (fst run)).
  vm_compute. reflexivity.
Defined.

(** A successful run stores a dataset whose rows are exactly the rows of
    the previous dataset (none if there was no file) and the scraped
    records: no row is lost and none is invented. *)
Theorem scrape_and_update_keeps_rows {num} (num_eq_dec : forall x y : num, {x = y} + {x <> y})
  hs download clock date ps (w w' : world num) :
  download date = inr ps ->
  scrape_and_update num_eq_dec hs download clock date w = (inr true, w') ->
  exists f, store w' = Some f /\
    forall r, In r (rows f) <->
              In r (match store w with Some g => rows g | None => [] end) \/
              In r (parse_params date ps).
Proof.
  intros Hdl H. destruct w as [st tr].
  unfold scrape_and_update, bind, fetch, scrape, try_except, lift in H. rewrite Hdl in H.
  destruct (validate_quiet hs clock date (mk_world st tr)) as [b [evs [Hv _]]]. rewrite Hv in H.
  destruct b; simpl in H; [|discriminate].
  split_M H. all: inversion H; subst.
  all: match goal with
       | E : sort_values _ _ = inr ?f |- _ =>
           exists f; split; [reflexivity|]; intro r; rewrite (merged_rows _ _ _ _ E r);
           destruct st; reflexivity
       end.
Qed.

Lemma scrape_and_update_keeps_rows_witness :
  let tuesday := to_timestamp 19738 in
  let run := scrape_and_update Z.eq_dec [] download_one (tuesday + 36000 * 1000000000) tuesday
               (mk_world (Some stored_jan15) []) in
  exists f, store (snd run) = Some f /\
    forall r, In r (rows f) <->
              In r (rows stored_jan15) \/
              In r (parse_params tuesday
                      [mk_param (Some "PREFIXADOS"%string) (Some 10) (Some (-3)) (Some 2) None (Some 1) None]).
Proof.
  intros tuesday run.
  apply (scrape_and_update_keeps_rows Z.eq_dec [] download_one (tuesday + 36000 * 1000000000) tuesday
           _ (mk_world (Some stored_jan15) []) (snd run)); [reflexivity|].
  vm_compute. reflexivity.
Defined.

Lemma fetch_guard_cases {num} (f : frame num) date :
  negb (frame_empty f) && has_column "date" f = false \/ date_present f date = false ->
  has_column "date" f = true -> date_present f date = false.
Proof.
  intros [H|H] Hc; [|exact H]. rewrite Hc, andb_true_r in H. apply negb_false_iff in H.
  unfold frame_empty in H. unfold has_column in Hc. unfold date_present.
  destruct (columns f); [discriminate|]. destruct (rows f); [reflexivity | discriminate].
Qed.

(** The scraper is called only for the requested date, only once
    [_validate_date] has accepted it, and never when the stored dataset has a
    [date] column that already contains it. *)
Theorem scrape_and_update_fetch_guard {num} (num_eq_dec : forall x y : num, {x = y} + {x <> y})
  hs download clock date (w w' : world num) r :
  scrape_and_update num_eq_dec hs download clock date w = (r, w') ->
  exists evs, trace w' = trace w ++ evs /\
    forall d, In (Fetch d) evs ->
      d = date /\ fst (_validate_date hs clock date w) = inr true /\
      forall f, store w = Some f -> has_column "date" f = true -> date_present f date = false.
Proof.
  intro H. destruct w as [st tr].
  unfold scrape_and_update, bind, fetch, scrape, try_except, lift in H.
  destruct (validate_quiet hs clock date (mk_world st tr)) as [b [evs [Hv Hq]]]. rewrite Hv in H.
  destruct b; simpl in H.
  2: { inversion H; subst. exists evs. split; [reflexivity|].
       intros d Hin. exfalso. exact (quiet_no_fetch _ _ Hq Hin). }
  destruct (download date); split_M H. all: inversion H; subst; simpl.
  all: eexists; split; [rewrite <- ?app_assoc; reflexivity|].
  all: intros d Hin; apply in_app_or in Hin; destruct Hin as [Hin|Hin];
       [exfalso; exact (quiet_no_fetch _ _ Hq Hin)|].
  all: simpl in Hin; repeat (destruct Hin as [Hin|Hin]; [try discriminate Hin|]);
       try contradiction.
  all: injection Hin as <-; split; [reflexivity|]; split; [rewrite Hv; reflexivity|].
  all: intros g Hst Hc; simpl in Hst; subst st; simpl in *; apply fetch_guard_cases; auto.
  all: first [congruence
             | left; match goal with E : negb (frame_empty _) = false |- _ => rewrite E; reflexivity end
             | left; match goal with E : frame_empty _ = true |- _ => rewrite E; reflexivity end].
Qed.

Lemma scrape_and_update_fetch_guard_witness :
  let run := scrape_and_update Z.eq_dec [] download_one monday_10am monday_2024_01_15
               (mk_world None []) in
  run = (fst run, snd run) /\
  exists evs, trace (snd run) = trace (mk_world (num := Z) None []) ++ evs /\
    forall d, In (Fetch d) evs ->
      d = monday_2024_01_15 /\
      fst (_validate_date [] monday_10am monday_2024_01_15 (mk_world (num := Z) None [])) = inr true /\
      forall f, store (mk_world (num := Z) None []) = Some f -> has_column "date" f = true ->
                date_present f monday_2024_01_15 = false.
Proof.
  intro run. split; [reflexivity|].
  apply (scrape_and_update_fetch_guard Z.eq_dec [] download_one monday_10am monday_2024_01_15
           (mk_world None []) (snd run) (fst run)).
  vm_compute. reflexivity.
Defined.

(** ** Calendar *)

Lemma is_business_day_day_of hs t : is_business_day hs t = is_busday hs (day_of t).
Proof.
  unfold is_business_day, is_busday, weekday. rewrite normalize_eq, day_of_to_timestamp. reflexivity.
Qed.

Lemma cbd_prev_spec hs d :
  cbd_apply hs (-1) d < d /\ is_busday hs (cbd_apply hs (-1) d) = true /\
  forall x, cbd_apply hs (-1) d < x < d -> is_busday hs x = false.
Proof.
  rewrite cbd_apply_minus1.
  destruct (roll_forward_spec hs d) as [Hf1 [Hf2 Hf3]].
  set (rf := roll_forward hs d) in *.
  destruct (roll_backward_spec hs (rf - 1)) as [Hb1 [Hb2 Hb3]].
  set (rb := roll_backward hs (rf - 1)) in *.
  assert (Hlt : rb < d).
  { destruct (Z_lt_le_dec rb d) as [|Hge]; [assumption|].
    rewrite (Hf3 rb) in Hb2 by lia. discriminate. }
  split; [exact Hlt|]. split; [exact Hb2|].
  intros x Hx. apply Hb3. lia.
Qed.

Lemma rollforward_min hs d x : d <= x < rollforward hs d -> is_busday hs x = false.
Proof.
  unfold rollforward. destruct (is_busday hs d) eqn:Hd; [lia|]. rewrite cbd_apply_plus1.
  destruct (roll_backward_spec hs d) as [Hb1 [Hb2 _]].
  set (rb := roll_backward hs d) in *.
  assert (rb <> d) by (intro E; rewrite E in Hb2; congruence).
  destruct (roll_forward_spec hs (rb + 1)) as [_ [_ Hf3]].
  intro Hx. apply Hf3. lia.
Qed.

Lemma rollback_max hs d x : rollback hs d < x <= d -> is_busday hs x = false.
Proof.
  unfold rollback. destruct (is_busday hs d) eqn:Hd; [lia|]. rewrite cbd_apply_minus1.
  destruct (roll_forward_spec hs d) as [Hf1 [Hf2 _]].
  set (rf := roll_forward hs d) in *.
  assert (rf <> d) by (intro E; rewrite E in Hf2; congruence).
  destruct (roll_backward_spec hs (rf - 1)) as [_ [_ Hb3]].
  intro Hx. apply Hb3. lia.
Qed.

Lemma gen_loop_complete hs fuel cur e k :
  is_busday hs cur = true -> cur <= k <= e -> is_busday hs k = true ->
  k - cur < Z.of_nat fuel -> In k (gen_loop hs fuel cur e).
Proof.
  revert cur. induction fuel as [|f IH]; intros cur Hc Hk Hbk Hf; [simpl in Hf; lia|].
  simpl. replace (cur <=? e) with true by (symmetry; apply Z.leb_le; lia).
  destruct (Z.eq_dec k cur) as [->|Hne]; [left; reflexivity|].
  destruct (cur =? e) eqn:Heq; [apply Z.eqb_eq in Heq; lia|].
  right. destruct (cbd_step_spec hs cur Hc) as [Hlt Hnb].
  assert (Hle : cbd_apply hs 1 cur <= k).
  { rewrite cbd_apply_plus1, (roll_backward_busday hs cur Hc) in *.
    destruct (roll_forward_spec hs (cur + 1)) as [_ [_ Hf3]].
    destruct (Z_le_gt_dec (roll_forward hs (cur + 1)) k) as [|Hgt]; [assumption|].
    rewrite (Hf3 k) in Hbk by lia. discriminate. }
  apply IH; [exact Hnb | lia | exact Hbk | lia].
Qed.

Lemma generate_range_complete hs s e k :
  s <= k <= e -> is_busday hs k = true -> In k (generate_range hs s e).
Proof.
  intros Hk Hbk. unfold generate_range.
  destruct (is_busday hs s) eqn:Hs; simpl.
  - destruct (is_busday hs e) eqn:He; simpl.
    + destruct (e <? s) eqn:Hlt; [apply Z.ltb_lt in Hlt; lia|].
      apply gen_loop_complete; auto; lia.
    + assert (Hrb : k <= rollback hs e).
      { destruct (Z_le_gt_dec k (rollback hs e)) as [|Hgt]; [assumption|].
        rewrite (rollback_max hs e k) in Hbk by lia. discriminate. }
      destruct (rollback hs e <? s) eqn:Hlt; [apply Z.ltb_lt in Hlt; lia|].
      apply gen_loop_complete; auto; lia.
  - destruct (rollforward_spec hs s) as [_ Hrf].
    assert (Hrb : rollforward hs s <= k).
    { destruct (Z_le_gt_dec (rollforward hs s) k) as [|Hgt]; [assumption|].
      rewrite (rollforward_min hs s k) in Hbk by lia. discriminate. }
    destruct (e <? rollforward hs s) eqn:Hlt; [apply Z.ltb_lt in Hlt; lia|].
    apply gen_loop_complete; auto; lia.
Qed.


Lemma previous_business_day_day hs t :
  previous_business_day hs t = to_timestamp (cbd_apply hs (-1) (day_of t)).
Proof.
  unfold previous_business_day. cbv zeta. rewrite normalize_eq, day_of_to_timestamp. reflexivity.
Qed.


(** [previous_business_day] returns the latest business day strictly
    before the given day: every day strictly between the two is a weekend
    day or a holiday. *)
Theorem previous_business_day_greatest hs t u :
  previous_business_day hs t < normalize u < normalize t ->
  is_business_day hs u = false.
Proof.
  intros [H1 H2]. rewrite previous_business_day_day in H1.
  rewrite !normalize_eq in *. apply to_timestamp_lt in H1, H2.
  destruct (cbd_prev_spec hs (day_of t)) as [_ [_ Hgap]].
  rewrite is_business_day_day_of. apply Hgap. lia.
Qed.

Lemma previous_business_day_greatest_witness :
  previous_business_day [] monday_10am < normalize (to_timestamp 19735 + 18000 * 1000000000)
    < normalize monday_10am /\
  is_business_day [] (to_timestamp 19735 + 18000 * 1000000000) = false.
Proof.
  assert (H : previous_business_day [] monday_10am < normalize (to_timestamp 19735 + 18000 * 1000000000)
                < normalize monday_10am) by (split; vm_compute; reflexivity).
  split; [exact H|]. exact (previous_business_day_greatest [] monday_10am _ H).
Defined.

(** [day_range] misses no business day: every business day between the two
    (normalised) ends is in the range, at midnight. *)
Theorem day_range_complete hs a b t :
  normalize a <= normalize t <= normalize b -> is_business_day hs t = true ->
  In (normalize t) (day_range hs a b).
Proof.
  intros [H1 H2] Hb. unfold day_range. cbv zeta.
  rewrite !normalize_eq in *. rewrite !day_of_to_timestamp.
  apply to_timestamp_le in H1, H2. apply in_map.
  apply generate_range_complete; [lia|]. rewrite <- is_business_day_day_of. exact Hb.
Qed.

Lemma day_range_complete_witness :
  let wednesday_3am := to_timestamp 19732 + 10800 * 1000000000 in
  (normalize (to_timestamp 19730) <= normalize wednesday_3am <= normalize monday_10am /\
   is_business_day [] wednesday_3am = true) /\
  In (normalize wednesday_3am) (day_range [] (to_timestamp 19730) monday_10am).
Proof.
  intro wednesday_3am.
  assert (H1 : normalize (to_timestamp 19730) <= normalize wednesday_3am <= normalize monday_10am)
    by (split; vm_compute; discriminate).
  assert (H2 : is_business_day [] wednesday_3am = true) by (vm_compute; reflexivity).
  split; [split; assumption|]. exact (day_range_complete [] _ _ _ H1 H2).
Defined.

(** An end day before the start day gives an empty range. *)
Theorem day_range_empty_when_reversed hs a b :
  normalize b < normalize a -> day_range hs a b = [].
Proof.
  intro H. unfold day_range. cbv zeta. rewrite !normalize_eq in *. apply to_timestamp_lt in H.
  rewrite !day_of_to_timestamp. destruct (generate_range_spec hs (day_of a) (day_of b)) as [He _].
  rewrite (He H). reflexivity.
Qed.

Lemma day_range_empty_when_reversed_witness :
  normalize (monday_2024_01_15 - 1) < normalize monday_10am /\
  day_range [] monday_10am (monday_2024_01_15 - 1) = [].
Proof.
  assert (H : normalize (monday_2024_01_15 - 1) < normalize monday_10am) by (vm_compute; reflexivity).
  split; [exact H|]. exact (day_range_empty_when_reversed [] _ _ H).
Defined.

(** The range from a business day to itself, at any times of that day,
    is that day alone. *)
Theorem day_range_single_day hs t u :
  normalize u = normalize t -> is_business_day hs t = true ->
  day_range hs t u = [normalize t].
Proof.
  intros Hu Hb. unfold day_range. cbv zeta. rewrite Hu. rewrite normalize_eq.
  rewrite day_of_to_timestamp. rewrite is_business_day_day_of in Hb.
  set (d := day_of t) in *. unfold generate_range. rewrite Hb. simpl.
  rewrite Z.ltb_irrefl. replace (d - d + 1) with 1 by lia. simpl.
  rewrite Z.leb_refl, Z.eqb_refl. reflexivity.
Qed.

Lemma day_range_single_day_witness :
  (normalize monday_2024_01_15 = normalize monday_10am /\ is_business_day [] monday_10am = true) /\
  day_range [] monday_10am monday_2024_01_15 = [normalize monday_10am].
Proof.
  assert (H1 : normalize monday_2024_01_15 = normalize monday_10am) by (vm_compute; reflexivity).
  assert (H2 : is_business_day [] monday_10am = true) by (vm_compute; reflexivity).
  split; [split; assumption|]. exact (day_range_single_day [] _ _ H1 H2).
Defined.

(** ** [auto_scrape.py] *)





(** ** [BRCal._fetch_holidays] *)




(** ** [AnbimaIRTSScraper.parse_params] and [scrape] *)




Lemma scrape_and_update_second_run_skips_witness :
  let run1 := scrape_and_update Z.eq_dec [] download_one monday_10am monday_2024_01_15
                (mk_world None []) in
  exists w2, scrape_and_update Z.eq_dec [] download_one monday_10am monday_2024_01_15 (snd run1)
             = (inr false, w2) /\ store w2 = store (snd run1).
Proof.
  intro run1.
  apply (scrape_and_update_second_run_skips Z.eq_dec [] download_one monday_10am monday_10am
           monday_2024_01_15 _ (mk_world None []) (snd run1) eq_refl); [discriminate|].
  vm_compute. reflexivity.
Defined.

Lemma scrape_and_update_fetch_error_witness :
  let download_503 := fun _ : Z => @inl exn (list (xml_param Z)) (FetchError "503") in
  exists r w', scrape_and_update Z.eq_dec [] download_503 monday_10am monday_2024_01_15
                 (mk_world None []) = (r, w') /\
    store w' = None /\
    exists evs, trace w' = [] ++ evs /\ ~ In WriteStore evs /\
      (r = inr false \/ (r = inl (FetchError "503") /\ In (Fetch monday_2024_01_15) evs /\
                         In (Log ERROR) evs)).
Proof.
  intro download_503.
  exact (scrape_and_update_fetch_error Z.eq_dec [] download_503 monday_10am monday_2024_01_15
           (FetchError "503") (mk_world None []) eq_refl).
Defined.

(** ** Time of day *)


